(** * The chat relay and leaderboard gateway of [api/app.py]

    A shallow embedding of the three request handlers of [api/app.py]
    ([submit_score], [chat] with its inner generator [generate], and
    [health_check]) together with the part of the host framework that
    turns a handler's outcome into what the caller receives.

    External collaborators (the completion provider, the hosted database,
    the clock) are oracles collected in [Env]; everything a handler does to
    them is recorded in the [World] it threads through. *)

From stdpp Require Import base option list strings gmap pretty.

Local Open Scope string_scope.
Local Open Scope list_scope.

(** ** Python values *)

(** The exceptions the handlers see.  [Exception] stands for any exception
    that is not the framework's [HTTPException]; its argument is its
    textual description. *)
Inductive exn : Type :=
  | Exception (msg : string)
  | HTTPException (status_code : Z) (detail : string).

(** [str(e)].  For [HTTPException] this is the framework's [__str__],
    [f"{self.status_code}: {self.detail}"]. *)
Definition str (e : exn) : string :=
  match e with
  | Exception msg => msg
  | HTTPException status_code detail => pretty status_code +:+ ": " +:+ detail
  end.

(** Values stored in the dictionaries exchanged with the database. *)
Inductive value : Type :=
  | VStr (s : string)
  | VInt (n : Z).

(** Truthiness of an optional list: [None] and [[]] are falsy. *)
Definition truthy {A : Type} (o : option (list A)) : bool :=
  match o with
  | Some (_ :: _) => true
  | _ => false
  end.

(** ** Request models (lines 44-53) *)

Record ChatRequest : Type := {
  developer_message : string;
  user_message : string;
  model : option string;
  message_history : option (list (gmap string string))
}.

Definition default_model : option string := Some "gpt-4.1-mini".
Definition default_message_history : option (list (gmap string string)) := Some [].

Record LeaderboardEntry : Type := {
  initials : string;
  score : Z
}.

(** ** The provider's stream *)

Record ChoiceDelta : Type := {
  role : option string;
  content : option string
}.

Record Choice : Type := { delta : ChoiceDelta }.

Record ChatCompletionChunk : Type := { choices : list Choice }.

(** A finite provider stream: the chunks it delivers, in arrival order,
    and how iteration ends after the last of them, normally ([None]) or
    with an exception. *)
Record Stream : Type := {
  stream_chunks : list ChatCompletionChunk;
  stream_error : option exn
}.

(** ** The world outside the process *)

Inductive call : Type :=
  | TableInsert (table : string) (row : gmap string value)
  | Rpc (fn : string) (params : gmap string value)
  | CompletionsCreate (model : option string)
      (messages : list (gmap string string)).

Inductive level : Type := INFO | WARNING | ERROR.

Record World : Type := {
  db : gmap string (list (gmap string value));
  calls : list call;
  log : list (level * string)
}.

(** The behaviour of the collaborators. *)
Record Env : Type := {
  (** [datetime.now().isoformat()] *)
  now_isoformat : string;
  (** [supabase.table(t).insert(row).execute()]: the failure, if any *)
  insert_execute :
    string → gmap string value → gmap string (list (gmap string value)) →
    option exn;
  (** [supabase.rpc(fn, params).execute()]: a failure or [result.data] *)
  rpc_execute :
    string → gmap string value → gmap string (list (gmap string value)) →
    exn + option (list (gmap string value));
  (** [OpenAI()]: the failure, if any *)
  OpenAI_init : option exn;
  (** [client.chat.completions.create(model=, messages=, stream=True)] *)
  completions_create :
    option string → list (gmap string string) → exn + Stream;
  (** [str(request)], as the request model renders itself *)
  request_str : ChatRequest → string
}.

(** ** Handler computations: state and exceptions *)

Inductive Outcome (A : Type) : Type :=
  | Returned (a : A)
  | Raised (e : exn).
Arguments Returned {A} a.
Arguments Raised {A} e.

Definition Handler (A : Type) : Type := World → Outcome A * World.

#[global] Instance Handler_ret : MRet Handler := λ A a w, (Returned a, w).

#[global] Instance Handler_bind : MBind Handler := λ A B f m w,
  match m w with
  | (Returned a, w') => f a w'
  | (Raised e, w') => (Raised e, w')
  end.

Definition raise {A : Type} (e : exn) : Handler A := λ w, (Raised e, w).

(** [try: body  except Exception as e: handler e] *)
Definition try_except {A : Type} (body : Handler A) (handler : exn → Handler A)
  : Handler A := λ w,
  match body w with
  | (Returned a, w') => (Returned a, w')
  | (Raised e, w') => handler e w'
  end.

Definition logger (l : level) (msg : string) : Handler unit := λ w,
  (Returned (), {| db := db w; calls := calls w; log := log w ++ [(l, msg)] |}).

Section WithEnv.
Context (env : Env).

Definition datetime_now_isoformat : Handler string :=
  mret (now_isoformat env).

(** The insert is issued, then either fails or adds the row at the end
    of the table. *)
Definition table_insert_execute (table : string) (row : gmap string value)
  : Handler unit := λ w,
  let w' := {| db := db w; calls := calls w ++ [TableInsert table row];
               log := log w |} in
  match insert_execute env table row (db w) with
  | Some e => (Raised e, w')
  | None =>
      (Returned (),
       {| db := <[table := (db w !!! table) ++ [row]]> (db w);
          calls := calls w'; log := log w' |})
  end.

Definition supabase_rpc_execute (fn : string) (params : gmap string value)
  : Handler (option (list (gmap string value))) := λ w,
  let w' := {| db := db w; calls := calls w ++ [Rpc fn params];
               log := log w |} in
  match rpc_execute env fn params (db w) with
  | inl e => (Raised e, w')
  | inr data => (Returned data, w')
  end.

(** *** [submit_score] (lines 56-88) *)
Definition submit_score (entry : LeaderboardEntry)
  : Handler (list (gmap string value)) :=
  try_except
    (now ← datetime_now_isoformat;
     table_insert_execute "leaderboard"
       {[ "initials" := VStr (initials entry);
          "score" := VInt (score entry);
          "created_at" := VStr now ]};;
     let window_size := 3%Z in
     try_except
       (result_data ← supabase_rpc_execute "get_leaderboard_window"
          {[ "p_initials" := VStr (initials entry);
             "p_score" := VInt (score entry);
             "p_window_size" := VInt window_size ]};
        if negb (truthy result_data) then
          logger WARNING "No data returned from leaderboard query";;
          mret []
        else
          mret (default [] result_data))
       (λ e,
         logger ERROR ("Error executing query: " +:+ str e);;
         raise (HTTPException 500 (str e))))
    (λ e,
      logger ERROR ("Error submitting score: " +:+ str e);;
      raise (HTTPException 500 (str e))).

(** *** What a generator does when it is driven to its end *)

(** The values it yields, in order, and how it stops: exhausted
    ([None]) or by an exception escaping its body. *)
Record GeneratorRun : Type := {
  yielded : list string;
  raised : option exn
}.

(** A generator object is suspended code: nothing of its body runs
    until it is iterated. *)
Definition Generator : Type := World → GeneratorRun * World.

Record StreamingResponse : Type := {
  body_iterator : Generator;
  media_type : string
}.

(** [OpenAI()] *)
Definition OpenAI : Handler unit := λ w,
  match OpenAI_init env with
  | Some e => (Raised e, w)
  | None => (Returned (), w)
  end.

(** Lines 102-111: the local [messages] of [generate]. *)
Definition generate_messages (request : ChatRequest)
  : list (gmap string string) :=
  let messages :=
    [ ({[ "role" := "developer";
          "content" := developer_message request ]} : gmap string string) ] in
  let messages :=
    if truthy (message_history request)
    then messages ++ default [] (message_history request)
    else messages in
  messages ++ [ {[ "role" := "user"; "content" := user_message request ]} ].

(** Lines 121-123: [for chunk in stream]. [chunk.choices[0]] raises
    [IndexError] on a chunk without choices. *)
Fixpoint for_chunk_in (chunks : list ChatCompletionChunk)
    (stream_error : option exn) : GeneratorRun :=
  match chunks with
  | [] => {| yielded := []; raised := stream_error |}
  | chunk :: rest =>
      match choices chunk with
      | [] =>
          {| yielded := [];
             raised := Some (Exception "list index out of range") |}
      | choice0 :: _ =>
          match content (delta choice0) with
          | Some text =>
              let run := for_chunk_in rest stream_error in
              {| yielded := text :: yielded run; raised := raised run |}
          | None => for_chunk_in rest stream_error
          end
      end
  end.

(** *** [generate] (lines 100-123) *)
Definition generate (request : ChatRequest) : Generator := λ w,
  let messages := generate_messages request in
  let w' := {| db := db w;
               calls := calls w ++ [CompletionsCreate (model request) messages];
               log := log w |} in
  match completions_create env (model request) messages with
  | inl e => ({| yielded := []; raised := Some e |}, w')
  | inr stream =>
      (for_chunk_in (stream_chunks stream) (stream_error stream), w')
  end.

(** *** [chat] (lines 91-131) *)
Definition chat (request : ChatRequest) : Handler StreamingResponse :=
  try_except
    (logger INFO ("Received request: " +:+ request_str env request);;
     client ← OpenAI;
     mret {| body_iterator := generate request;
             media_type := "text/plain" |})
    (λ e,
      logger ERROR ("Error processing request: " +:+ str e);;
      raise (HTTPException 500 (str e))).

(** *** [health_check] (lines 134-136) *)
Definition health_check : Handler (gmap string string) :=
  mret {[ "status" := "ok" ]}.

(** ** What the caller receives

    The host framework's part: a returned value is sent with status 200,
    an [HTTPException] with its own status and [{"detail": detail}], any
    other escaping exception as a bare 500.  A streaming response sends
    its status line first and only then iterates its body; an exception
    escaping the body cuts the stream short. *)

Inductive Body : Type :=
  | JsonRows (rows : list (gmap string value))
  | JsonObject (fields : gmap string string)
  | JsonDetail (detail : string)
  | PlainText (text : string)
  | Streamed (media : string) (writes : list string) (completed : bool).

Record HTTPResponse : Type := {
  status : Z;
  body : Body
}.

Definition exception_response (e : exn) : HTTPResponse :=
  match e with
  | HTTPException status_code detail =>
      {| status := status_code; body := JsonDetail detail |}
  | Exception _ =>
      {| status := 500; body := PlainText "Internal Server Error" |}
  end.

(** [POST /api/leaderboard] *)
Definition post_api_leaderboard (entry : LeaderboardEntry)
  : World → HTTPResponse * World := λ w,
  match submit_score entry w with
  | (Returned rows, w') => ({| status := 200; body := JsonRows rows |}, w')
  | (Raised e, w') => (exception_response e, w')
  end.

(** [POST /api/chat] *)
Definition post_api_chat (request : ChatRequest)
  : World → HTTPResponse * World := λ w,
  match chat request w with
  | (Returned response, w') =>
      let '(run, w'') := body_iterator response w' in
      ({| status := 200;
          body := Streamed (media_type response) (yielded run)
                    (bool_decide (raised run = None)) |}, w'')
  | (Raised e, w') => (exception_response e, w')
  end.

(** [GET /api/health] *)
Definition get_api_health : World → HTTPResponse * World := λ w,
  match health_check w with
  | (Returned fields, w') =>
      ({| status := 200; body := JsonObject fields |}, w')
  | (Raised e, w') => (exception_response e, w')
  end.

End WithEnv.

(** The text the caller has read once the response is over. *)
Definition body_text (b : Body) : string :=
  match b with
  | Streamed _ writes _ => foldr String.append "" writes
  | PlainText text => text
  | _ => ""
  end.

(** * Properties *)

(** ** Notions used in the statements *)

(** [chunk.choices[0].delta.content] where it is defined and not [None]. *)
Definition chunk_text (chunk : ChatCompletionChunk) : option string :=
  match choices chunk with
  | [] => None
  | choice0 :: _ => content (delta choice0)
  end.

(** [chunk.choices[0]] is defined. *)
Definition has_choice (chunk : ChatCompletionChunk) : bool :=
  match choices chunk with
  | [] => false
  | _ :: _ => true
  end.

(** The calls a computation added to those of the world it started in. *)
Definition new_calls (before after : World) : list call :=
  drop (length (calls before)) (calls after).

(** The [messages] arguments of the completion calls among [cs]. *)
Definition sent_messages (cs : list call) : list (list (gmap string string)) :=
  omap (λ c, match c with
             | CompletionsCreate _ messages => Some messages
             | _ => None
             end) cs.

Definition is_rpc (c : call) : bool :=
  match c with Rpc _ _ => true | _ => false end.

(** What line 122 reads of a chunk: the content of the delta of its
    first choice, when it has one. *)
Definition first_content (chunk : ChatCompletionChunk)
  : option (option string) :=
  (λ choice0, content (delta choice0)) <$> head (choices chunk).

(** The log records a computation added to those of the world it
    started in. *)
Definition new_log (before after : World) : list (level * string) :=
  drop (length (log before)) (log after).

(** A delta carries no text when its content is absent or is the empty
    string. *)
Definition no_text_content (d : ChoiceDelta) : bool :=
  match content d with
  | None => true
  | Some "" => true
  | Some _ => false
  end.

(** ** Concrete collaborators used in the examples *)

Module Examples.

Definition world0 : World := {| db := ∅; calls := []; log := [] |}.

Definition AAA_100 : LeaderboardEntry := {| initials := "AAA"; score := 100 |}.

Definition window : list (gmap string value) :=
  [ {[ "initials" := VStr "ZED"; "score" := VInt 120; "rank" := VInt 1 ]};
    {[ "initials" := VStr "AAA"; "score" := VInt 100; "rank" := VInt 2 ]} ].

Definition text_chunk (s : string) : ChatCompletionChunk :=
  {| choices := [ {| delta := {| role := None; content := Some s |} |} ] |}.

Definition role_chunk : ChatCompletionChunk :=
  {| choices :=
       [ {| delta := {| role := Some "assistant"; content := None |} |} ] |}.

Definition hello_stream : Stream :=
  {| stream_chunks := [text_chunk "Hel"; text_chunk "lo"; text_chunk " world"];
     stream_error := None |}.

(** Every collaborator answers. *)
Definition all_up : Env :=
  {| now_isoformat := "2025-06-01T12:00:00";
     insert_execute := λ _ _ _, None;
     rpc_execute := λ _ _ _, inr (Some window);
     OpenAI_init := None;
     completions_create := λ _ _, inr hello_stream;
     request_str := λ r,
       "developer_message=" +:+ developer_message r +:+
       " user_message=" +:+ user_message r |}.

Definition with_insert (failure : option exn) (env : Env) : Env :=
  {| now_isoformat := now_isoformat env;
     insert_execute := λ _ _ _, failure;
     rpc_execute := rpc_execute env;
     OpenAI_init := OpenAI_init env;
     completions_create := completions_create env;
     request_str := request_str env |}.

Definition with_rpc
    (answer : exn + option (list (gmap string value))) (env : Env) : Env :=
  {| now_isoformat := now_isoformat env;
     insert_execute := insert_execute env;
     rpc_execute := λ _ _ _, answer;
     OpenAI_init := OpenAI_init env;
     completions_create := completions_create env;
     request_str := request_str env |}.

Definition with_create (answer : exn + Stream) (env : Env) : Env :=
  {| now_isoformat := now_isoformat env;
     insert_execute := insert_execute env;
     rpc_execute := rpc_execute env;
     OpenAI_init := OpenAI_init env;
     completions_create := λ _ _, answer;
     request_str := request_str env |}.

Definition with_OpenAI (failure : option exn) (env : Env) : Env :=
  {| now_isoformat := now_isoformat env;
     insert_execute := insert_execute env;
     rpc_execute := rpc_execute env;
     OpenAI_init := failure;
     completions_create := completions_create env;
     request_str := request_str env |}.

Definition greeting : ChatRequest :=
  {| developer_message := "Be brief.";
     user_message := "Say hello.";
     model := default_model;
     message_history :=
       Some [ {[ "role" := "user"; "content" := "Hi" ]};
              {[ "role" := "assistant"; "content" := "Hi there" ]} ] |}.

End Examples.

Lemma new_calls_app (w w' : World) (cs : list call) :
  calls w' = calls w ++ cs → new_calls w w' = cs.
Proof. intros E. unfold new_calls. rewrite E. apply drop_app_length. Qed.

(** ** The generator's loop *)

Section Loop.
Implicit Types (chunks : list ChatCompletionChunk) (err : option exn).

Lemma for_chunk_in_text_prefix chunks fragments rest err :
  map chunk_text chunks = Some <$> fragments →
  for_chunk_in (chunks ++ rest) err =
    {| yielded := fragments ++ yielded (for_chunk_in rest err);
       raised := raised (for_chunk_in rest err) |}.
Proof.
  revert fragments.
  induction chunks as [|chunk chunks IH]; intros [|f fragments] E;
    simplify_eq/=.
  - by destruct (for_chunk_in rest err).
  - unfold chunk_text in *. destruct (choices chunk) as [|c cs]; [done|].
    simplify_eq/=. destruct (content (delta c)); simplify_eq/=.
    by rewrite (IH fragments).
Qed.

Lemma for_chunk_in_text chunks fragments err :
  map chunk_text chunks = Some <$> fragments →
  for_chunk_in chunks err = {| yielded := fragments; raised := err |}.
Proof.
  intros E. rewrite <-(app_nil_r chunks).
  rewrite (for_chunk_in_text_prefix _ fragments) by done.
  simpl. by rewrite app_nil_r.
Qed.

(** On chunks that all have a first choice, the run yields the texts
    of the deltas that have one and nothing else. *)
Lemma for_chunk_in_omap chunks err :
  forallb has_choice chunks = true →
  for_chunk_in chunks err =
    {| yielded := omap chunk_text chunks; raised := err |}.
Proof.
  induction chunks as [|chunk chunks IH]; [done|].
  simpl. unfold has_choice, chunk_text.
  destruct (choices chunk) as [|c cs]; [done|]. simpl. intros H.
  rewrite IH by done. by destruct (content (delta c)).
Qed.

(** A delta whose content is [None] leaves no trace in the run,
    whatever surrounds it. *)
Lemma for_chunk_in_skips_none pre chunk choice0 post err :
  head (choices chunk) = Some choice0 →
  content (delta choice0) = None →
  for_chunk_in (pre ++ chunk :: post) err = for_chunk_in (pre ++ post) err.
Proof.
  intros Hc Hn. induction pre as [|p pre IH]; simpl.
  - destruct (choices chunk) as [|c cs]; simplify_eq/=. by rewrite Hn.
  - destruct (choices p) as [|c cs]; [done|].
    destruct (content (delta c)); by rewrite IH.
Qed.

(** A delta whose content is the empty string is text: it is yielded. *)
Lemma for_chunk_in_yields_empty_text r post err :
  yielded (for_chunk_in
    ({| choices := [ {| delta := {| role := r; content := Some "" |} |} ] |}
       :: post) err)
  = "" :: yielded (for_chunk_in post err).
Proof. reflexivity. Qed.
End Loop.

(** ** Runs of the handlers *)

Section Runs.
Context (env : Env).

Lemma chat_returns request w :
  OpenAI_init env = None →
  chat env request w =
    (Returned {| body_iterator := generate env request;
                 media_type := "text/plain" |},
     {| db := db w; calls := calls w;
        log := log w ++
          [(INFO, "Received request: " +:+ request_str env request)] |}).
Proof.
  intros E. unfold chat, try_except, OpenAI, logger, mbind, Handler_bind.
  simpl. by rewrite E.
Qed.

Lemma chat_raises request w e :
  OpenAI_init env = Some e →
  (chat env request w).1 = Raised (HTTPException 500 (str e)).
Proof.
  intros E. unfold chat, try_except, OpenAI, logger, mbind, Handler_bind.
  simpl. by rewrite E.
Qed.

Lemma generate_calls request w :
  calls (generate env request w).2 =
    calls w ++ [CompletionsCreate (model request) (generate_messages request)].
Proof.
  unfold generate.
  by destruct (completions_create env _ _).
Qed.

Lemma post_api_chat_streams request w :
  OpenAI_init env = None →
  (post_api_chat env request w).1 =
    let run :=
      match completions_create env (model request)
              (generate_messages request) with
      | inl e => {| yielded := []; raised := Some e |}
      | inr stream =>
          for_chunk_in (stream_chunks stream) (stream_error stream)
      end in
    {| status := 200;
       body := Streamed "text/plain" (yielded run)
                 (bool_decide (raised run = None)) |}.
Proof.
  intros E. unfold post_api_chat. rewrite chat_returns by done.
  unfold generate. simpl.
  by destruct (completions_create env _ _).
Qed.

(** The route issues the completion call of [generate] when the client
    could be built, and no call at all otherwise. *)
Lemma post_api_chat_new_calls request w :
  new_calls w (post_api_chat env request w).2 =
    match OpenAI_init env with
    | None =>
        [CompletionsCreate (model request) (generate_messages request)]
    | Some _ => []
    end.
Proof.
  destruct (OpenAI_init env) as [e|] eqn:E.
  - unfold post_api_chat, chat, try_except, OpenAI, logger, mbind,
      Handler_bind, raise. simpl. rewrite E. simpl.
    unfold new_calls. simpl. by rewrite drop_all.
  - apply new_calls_app.
    unfold post_api_chat. rewrite chat_returns by done.
    cbn [body_iterator].
    destruct (generate env request _) as [run w''] eqn:G.
    cbn [snd]. change w'' with (run, w'').2. rewrite <-G.
    by rewrite generate_calls.
Qed.

(** Once the client is built, no failure of the provider changes the
    status line: it has been sent before the generator body starts. *)
Lemma post_api_chat_status_200 request w :
  OpenAI_init env = None → status (post_api_chat env request w).1 = 200%Z.
Proof. intros E. by rewrite post_api_chat_streams. Qed.

End Runs.

(** ** [submit_score], case by case *)

Section Leaderboard.
Context (env : Env).

Local Abbreviation row entry :=
  ({[ "initials" := VStr (initials entry);
      "score" := VInt (score entry);
      "created_at" := VStr (now_isoformat env) ]} : gmap string value).

Local Abbreviation params entry :=
  ({[ "p_initials" := VStr (initials entry);
      "p_score" := VInt (score entry);
      "p_window_size" := VInt 3 ]} : gmap string value).

Local Abbreviation appended entry w :=
  (<["leaderboard" := (db w !!! "leaderboard") ++ [row entry]]> (db w)).

Lemma submit_score_insert_fails entry w e :
  insert_execute env "leaderboard" (row entry) (db w) = Some e →
  submit_score env entry w =
    (Raised (HTTPException 500 (str e)),
     {| db := db w;
        calls := calls w ++ [TableInsert "leaderboard" (row entry)];
        log := log w ++ [(ERROR, "Error submitting score: " +:+ str e)] |}).
Proof.
  intros E.
  unfold submit_score, try_except, table_insert_execute, logger, mbind,
    Handler_bind, datetime_now_isoformat, mret, Handler_ret, raise.
  simpl. by rewrite E.
Qed.

Lemma submit_score_rpc_fails entry w e :
  insert_execute env "leaderboard" (row entry) (db w) = None →
  rpc_execute env "get_leaderboard_window" (params entry) (appended entry w)
    = inl e →
  submit_score env entry w =
    (Raised (HTTPException 500 (str (HTTPException 500 (str e)))),
     {| db := appended entry w;
        calls := (calls w ++ [TableInsert "leaderboard" (row entry)])
                   ++ [Rpc "get_leaderboard_window" (params entry)];
        log := (log w ++ [(ERROR, "Error executing query: " +:+ str e)])
                 ++ [(ERROR, "Error submitting score: " +:+
                               str (HTTPException 500 (str e)))] |}).
Proof.
  intros E1 E2.
  unfold submit_score, try_except, table_insert_execute,
    supabase_rpc_execute, logger, mbind, Handler_bind,
    datetime_now_isoformat, mret, Handler_ret, raise.
  simpl. rewrite E1. simpl. by rewrite E2.
Qed.

Lemma submit_score_returns entry w data :
  insert_execute env "leaderboard" (row entry) (db w) = None →
  rpc_execute env "get_leaderboard_window" (params entry) (appended entry w)
    = inr data →
  (submit_score env entry w).1 = Returned (default [] data) ∧
  db (submit_score env entry w).2 = appended entry w ∧
  calls (submit_score env entry w).2 =
    calls w ++ [TableInsert "leaderboard" (row entry);
                Rpc "get_leaderboard_window" (params entry)].
Proof.
  intros E1 E2.
  unfold submit_score, try_except, table_insert_execute,
    supabase_rpc_execute, logger, mbind, Handler_bind,
    datetime_now_isoformat, mret, Handler_ret, raise.
  simpl. rewrite E1. simpl. rewrite E2.
  destruct data as [[|r rs]|]; simpl; by rewrite <-app_assoc.
Qed.

End Leaderboard.

(** ** The chat relay *)

(** C1. The messages handed to the provider are the developer message,
    then the entries of [message_history] in their order (none when the
    history is absent or empty), then the current user message: the
    developer entry is element 0, the user entry is the last element, and
    what lies between them is the history, whatever it contains.  They
    are the argument of the one completion call [generate] issues, which
    is the only call of the route (issued unless [OpenAI()] fails). *)
Theorem generate_sends_developer_history_user
    (env : Env) (request : ChatRequest) (w : World) :
  let developer : gmap string string :=
    {[ "role" := "developer"; "content" := developer_message request ]} in
  let user : gmap string string :=
    {[ "role" := "user"; "content" := user_message request ]} in
  let history := default [] (message_history request) in
  let messages := generate_messages request in
  new_calls w (generate env request w).2
    = [CompletionsCreate (model request) messages] ∧
  new_calls w (post_api_chat env request w).2
    = match OpenAI_init env with
      | None => [CompletionsCreate (model request) messages]
      | Some _ => []
      end ∧
  messages = developer :: history ++ [user] ∧
  messages !! 0 = Some developer ∧
  last messages = Some user ∧
  length messages = S (S (length history)) ∧
  take (length history) (drop 1 messages) = history.
Proof.
  intros developer user history messages.
  assert (Hm : messages = developer :: history ++ [user]).
  { subst messages history developer user. unfold generate_messages.
    by destruct (message_history request) as [[|h t]|]. }
  split_and!.
  - apply new_calls_app, generate_calls.
  - apply post_api_chat_new_calls.
  - done.
  - by rewrite Hm.
  - rewrite Hm. change (developer :: history ++ [user])
      with ((developer :: history) ++ [user]). apply last_snoc.
  - rewrite Hm. simpl. rewrite length_app. simpl. lia.
  - rewrite Hm. simpl. rewrite drop_0. by rewrite take_app_length.
Qed.

(** C10. The messages built and sent depend on the request alone: two
    invocations on requests with equal fields send the same sequence,
    whatever the collaborators do and whatever happened before. *)
Theorem generate_messages_deterministic
    (env1 env2 : Env) (w1 w2 : World) (r1 r2 : ChatRequest) :
  developer_message r1 = developer_message r2 →
  user_message r1 = user_message r2 →
  model r1 = model r2 →
  message_history r1 = message_history r2 →
  generate_messages r1 = generate_messages r2 ∧
  new_calls w1 (generate env1 r1 w1).2 = new_calls w2 (generate env2 r2 w2).2 ∧
  sent_messages (new_calls w1 (generate env1 r1 w1).2) = [generate_messages r1] ∧
  sent_messages (new_calls w2 (generate env2 r2 w2).2) = [generate_messages r1].
Proof.
  intros Hd Hu Hm Hh.
  assert (E : generate_messages r1 = generate_messages r2).
  { unfold generate_messages. by rewrite Hd, Hu, Hh. }
  rewrite (new_calls_app w1 _ _ (generate_calls env1 r1 w1)).
  rewrite (new_calls_app w2 _ _ (generate_calls env2 r2 w2)).
  rewrite <-E, <-Hm. done.
Qed.

Lemma generate_messages_deterministic_witness :
  let r1 := Examples.greeting in
  let r2 :=
    {| developer_message := "Be brief."; user_message := "Say hello.";
       model := Some "gpt-4.1-mini";
       message_history := message_history Examples.greeting |} in
  let env1 := Examples.all_up in
  let env2 := Examples.with_create (inl (Exception "boom")) Examples.all_up in
  let w1 := Examples.world0 in
  let w2 := (post_api_leaderboard env1 Examples.AAA_100 Examples.world0).2 in
  generate_messages r1 = generate_messages r2 ∧
  new_calls w1 (generate env1 r1 w1).2 = new_calls w2 (generate env2 r2 w2).2 ∧
  sent_messages (new_calls w1 (generate env1 r1 w1).2) = [generate_messages r1] ∧
  sent_messages (new_calls w2 (generate env2 r2 w2).2) = [generate_messages r1].
Proof.
  intros r1 r2 env1 env2 w1 w2.
  apply (generate_messages_deterministic env1 env2 w1 w2 r1 r2);
    reflexivity.
Defined.

(** C2. When the provider's stream consists of fragments that all carry
    text and ends normally, the caller receives status 200 and exactly
    those fragments as the writes of the body, one write per fragment, in
    arrival order; the text read is their concatenation. *)
Theorem chat_relays_fragments_in_order
    (env : Env) (request : ChatRequest) (w : World)
    (stream : Stream) (fragments : list string) :
  OpenAI_init env = None →
  completions_create env (model request) (generate_messages request)
    = inr stream →
  map chunk_text (stream_chunks stream) = Some <$> fragments →
  stream_error stream = None →
  (post_api_chat env request w).1 =
    {| status := 200; body := Streamed "text/plain" fragments true |} ∧
  body_text (body (post_api_chat env request w).1)
    = foldr String.append "" fragments.
Proof.
  intros Hinit Hcreate Htext Hend.
  assert (E : (post_api_chat env request w).1 =
    {| status := 200; body := Streamed "text/plain" fragments true |}).
  { rewrite post_api_chat_streams by done. rewrite Hcreate.
    rewrite (for_chunk_in_text _ fragments) by done.
    simpl. by rewrite Hend. }
  by rewrite E.
Qed.

Lemma chat_relays_fragments_in_order_witness :
  let env := Examples.all_up in
  let request := Examples.greeting in
  let w := Examples.world0 in
  let fragments := ["Hel"; "lo"; " world"] in
  (OpenAI_init env = None ∧
   completions_create env (model request) (generate_messages request)
     = inr Examples.hello_stream ∧
   map chunk_text (stream_chunks Examples.hello_stream) = Some <$> fragments ∧
   stream_error Examples.hello_stream = None) ∧
  (post_api_chat env request w).1 =
    {| status := 200; body := Streamed "text/plain" fragments true |} ∧
  body_text (body (post_api_chat env request w).1) = "Hello world".
Proof.
  intros env request w fragments.
  split; [by repeat split|].
  apply (chat_relays_fragments_in_order env request w
           Examples.hello_stream fragments); reflexivity.
Defined.

(** C5 as stated fails.  A role-only delta whose content is the empty
    string carries no text, yet the test of line 122 lets it through:
    between "Hel" and "lo" it gives the writes "Hel", "", "lo", an empty
    write standing for it. *)
Lemma chat_forwards_delta_with_empty_content :
  ¬ (∀ (env : Env) (request : ChatRequest) (w : World)
       (pre post : list ChatCompletionChunk) (chunk : ChatCompletionChunk)
       (choice0 : Choice) (err : option exn),
       OpenAI_init env = None →
       completions_create env (model request) (generate_messages request)
         = inr {| stream_chunks := pre ++ chunk :: post;
                  stream_error := err |} →
       head (choices chunk) = Some choice0 →
       no_text_content (delta choice0) = true →
       forallb has_choice pre = true →
       forallb has_choice post = true →
       body (post_api_chat env request w).1 =
         Streamed "text/plain" (omap chunk_text pre ++ omap chunk_text post)
           (bool_decide (err = None))).
Proof.
  intros H.
  pose (choice0 :=
    {| delta := {| role := Some "assistant"; content := Some "" |} |}).
  pose (pre := [Examples.text_chunk "Hel"]).
  pose (post := [Examples.text_chunk "lo"]).
  pose (stream :=
    {| stream_chunks := pre ++ {| choices := [choice0] |} :: post;
       stream_error := None |}).
  specialize (H (Examples.with_create (inr stream) Examples.all_up)
                Examples.greeting Examples.world0 pre post
                {| choices := [choice0] |} choice0 None
                eq_refl eq_refl eq_refl eq_refl eq_refl eq_refl).
  vm_compute in H. discriminate H.
Qed.

(** The writes of that stream. *)
Example chat_writes_with_empty_content_delta :
  body (post_api_chat
          (Examples.with_create
             (inr {| stream_chunks :=
                       [ Examples.text_chunk "Hel";
                         {| choices :=
                              [ {| delta := {| role := Some "assistant";
                                               content := Some "" |} |} ] |};
                         Examples.text_chunk "lo" ];
                     stream_error := None |})
             Examples.all_up)
          Examples.greeting Examples.world0).1
    = Streamed "text/plain" ["Hel"; ""; "lo"] true.
Proof. reflexivity. Qed.

(** C5, amended.  A delta whose content is absent is dropped, wherever
    it arrives in the stream: the writes of the body are the texts of the
    deltas that carry a content, those before it followed by those after
    it, in order.  No write stands for the dropped delta: every write, an
    empty one included, is the content of some other delta of the
    stream, so an empty write occurs only for a delta whose content is
    the empty string. *)
Theorem chat_drops_delta_without_content
    (env : Env) (request : ChatRequest) (w : World)
    (pre post : list ChatCompletionChunk) (chunk : ChatCompletionChunk)
    (choice0 : Choice) (err : option exn) :
  OpenAI_init env = None →
  completions_create env (model request) (generate_messages request)
    = inr {| stream_chunks := pre ++ chunk :: post; stream_error := err |} →
  head (choices chunk) = Some choice0 →
  content (delta choice0) = None →
  forallb has_choice pre = true →
  forallb has_choice post = true →
  let writes := omap chunk_text pre ++ omap chunk_text post in
  body (post_api_chat env request w).1 =
    Streamed "text/plain" writes (bool_decide (err = None)) ∧
  Forall (λ s, ∃ c, c ∈ pre ++ post ∧ chunk_text c = Some s) writes.
Proof.
  intros Hinit Hcreate Hhead Hnone Hpre Hpost writes. split.
  - rewrite post_api_chat_streams by done. rewrite Hcreate. simpl.
    rewrite (for_chunk_in_skips_none pre chunk choice0) by done.
    rewrite for_chunk_in_omap.
    + subst writes. by rewrite omap_app.
    + rewrite forallb_app. by rewrite Hpre, Hpost.
  - subst writes. rewrite <-omap_app. apply Forall_forall. intros s Hs.
    apply list_elem_of_omap in Hs as (c & Hc & Hs). eauto.
Qed.

Lemma chat_drops_delta_without_content_witness :
  let pre := [Examples.text_chunk "Hel"] in
  let post := [Examples.text_chunk "lo"; Examples.text_chunk " world"] in
  let stream :=
    {| stream_chunks := pre ++ Examples.role_chunk :: post;
       stream_error := None |} in
  let env := Examples.with_create (inr stream) Examples.all_up in
  let writes := omap chunk_text pre ++ omap chunk_text post in
  writes = ["Hel"; "lo"; " world"] ∧
  body (post_api_chat env Examples.greeting Examples.world0).1 =
    Streamed "text/plain" writes (bool_decide (None = None :> option exn)) ∧
  Forall (λ s, ∃ c, c ∈ pre ++ post ∧ chunk_text c = Some s) writes.
Proof.
  intros pre post stream env writes. split; [reflexivity|].
  apply (chat_drops_delta_without_content env Examples.greeting
           Examples.world0 pre post Examples.role_chunk
           {| delta := {| role := Some "assistant"; content := None |} |}
           None); reflexivity.
Defined.

(** A failure of [OpenAI()] is raised inside the [try] of [chat]: the
    caller receives a 500 carrying its description. *)
Lemma post_api_chat_client_failure
    (env : Env) (request : ChatRequest) (w : World) (e : exn) :
  OpenAI_init env = Some e →
  (post_api_chat env request w).1 =
    {| status := 500; body := JsonDetail (str e) |}.
Proof.
  intros E. pose proof (chat_raises env request w e E) as H.
  unfold post_api_chat. destruct (chat env request w) as [o w'].
  simpl in H. by subst o.
Qed.

(** C3 (what the code does where the specification asks for a 500).  The
    completion call and the iteration of the provider's stream belong to
    the body of [generate], which [chat] only creates: [chat] returns its
    streaming response without raising, and the body runs once the
    response has been started with status 200, outside the [try] of
    [chat].  When the completion call raises, the caller gets status 200
    and a body cut short before any write; when the stream raises after
    some fragments, the caller gets status 200 and those fragments.  In
    neither case does the caller receive a 500 or the failure's
    description. *)
Theorem chat_provider_failure_escapes_the_try
    (env : Env) (request : ChatRequest) (w : World) :
  OpenAI_init env = None →
  (chat env request w).1 =
    Returned {| body_iterator := generate env request;
                media_type := "text/plain" |} ∧
  (∀ e : exn,
     completions_create env (model request) (generate_messages request)
       = inl e →
     (post_api_chat env request w).1 =
       {| status := 200; body := Streamed "text/plain" [] false |}) ∧
  (∀ (stream : Stream) (fragments : list string) (e : exn),
     completions_create env (model request) (generate_messages request)
       = inr stream →
     map chunk_text (stream_chunks stream) = Some <$> fragments →
     stream_error stream = Some e →
     (post_api_chat env request w).1 =
       {| status := 200; body := Streamed "text/plain" fragments false |}).
Proof.
  intros Hinit. split_and!.
  - by rewrite chat_returns.
  - intros e Hcreate. rewrite post_api_chat_streams by done.
    by rewrite Hcreate.
  - intros stream fragments e Hcreate Htext Herr.
    rewrite post_api_chat_streams by done. rewrite Hcreate.
    rewrite (for_chunk_in_text _ fragments) by done.
    simpl. by rewrite Herr.
Qed.

Lemma chat_provider_failure_escapes_the_try_witness :
  let broken :=
    {| stream_chunks := [Examples.text_chunk "Hel"];
       stream_error := Some (Exception "connection reset") |} in
  (post_api_chat (Examples.with_create (inl (Exception "boom")) Examples.all_up)
     Examples.greeting Examples.world0).1
    = {| status := 200; body := Streamed "text/plain" [] false |} ∧
  (post_api_chat (Examples.with_create (inr broken) Examples.all_up)
     Examples.greeting Examples.world0).1
    = {| status := 200; body := Streamed "text/plain" ["Hel"] false |}.
Proof.
  intros broken. split.
  - destruct (chat_provider_failure_escapes_the_try
                (Examples.with_create (inl (Exception "boom")) Examples.all_up)
                Examples.greeting Examples.world0 eq_refl) as (_ & H & _).
    exact (H (Exception "boom") eq_refl).
  - destruct (chat_provider_failure_escapes_the_try
                (Examples.with_create (inr broken) Examples.all_up)
                Examples.greeting Examples.world0 eq_refl) as (_ & _ & H).
    exact (H broken ["Hel"] (Exception "connection reset")
             eq_refl eq_refl eq_refl).
Defined.

(** The failure of [OpenAI()] at the same request. *)
Example chat_client_failure_is_a_500 :
  (post_api_chat (Examples.with_OpenAI (Some (Exception "boom")) Examples.all_up)
     Examples.greeting Examples.world0).1
    = {| status := 500; body := JsonDetail "boom" |}.
Proof. reflexivity. Qed.

(** ** The leaderboard gateway *)

(** C6. A submission issues exactly one insert, of the entry's initials
    and score with the creation time, and issues it first.  When the
    insert succeeds the table has gained exactly that row and the
    windowed query follows, with the entry's initials, the entry's score
    and the window size 3; when it fails nothing else is issued. *)
Theorem submit_score_inserts_then_queries
    (env : Env) (entry : LeaderboardEntry) (w : World) :
  let row : gmap string value :=
    {[ "initials" := VStr (initials entry);
       "score" := VInt (score entry);
       "created_at" := VStr (now_isoformat env) ]} in
  let params : gmap string value :=
    {[ "p_initials" := VStr (initials entry);
       "p_score" := VInt (score entry);
       "p_window_size" := VInt 3 ]} in
  let w' := (submit_score env entry w).2 in
  match insert_execute env "leaderboard" row (db w) with
  | None =>
      new_calls w w' =
        [TableInsert "leaderboard" row; Rpc "get_leaderboard_window" params] ∧
      db w' = <["leaderboard" := (db w !!! "leaderboard") ++ [row]]> (db w)
  | Some _ =>
      new_calls w w' = [TableInsert "leaderboard" row] ∧ db w' = db w
  end.
Proof.
  intros row params w'. subst w'.
  destruct (insert_execute env "leaderboard" row (db w)) as [e|] eqn:E1.
  - rewrite (submit_score_insert_fails env entry w e E1).
    split; [|done]. by apply new_calls_app.
  - destruct (rpc_execute env "get_leaderboard_window" params
                (<["leaderboard" := (db w !!! "leaderboard") ++ [row]]> (db w)))
      as [e|data] eqn:E2.
    + rewrite (submit_score_rpc_fails env entry w e E1 E2).
      split; [|done]. apply new_calls_app. simpl. by rewrite <-app_assoc.
    + destruct (submit_score_returns env entry w data E1 E2) as (_ & Hdb & Hc).
      split; [|done]. by apply new_calls_app.
Qed.

(** The submission of the spec's example, against collaborators that
    answer. *)
Example submit_AAA_100 :
  new_calls Examples.world0
    (submit_score Examples.all_up Examples.AAA_100 Examples.world0).2 =
    [ TableInsert "leaderboard"
        {[ "initials" := VStr "AAA"; "score" := VInt 100;
           "created_at" := VStr "2025-06-01T12:00:00" ]};
      Rpc "get_leaderboard_window"
        {[ "p_initials" := VStr "AAA"; "p_score" := VInt 100;
           "p_window_size" := VInt 3 ]} ] ∧
  db (submit_score Examples.all_up Examples.AAA_100 Examples.world0).2
    !! "leaderboard" =
    Some [ {[ "initials" := VStr "AAA"; "score" := VInt 100;
              "created_at" := VStr "2025-06-01T12:00:00" ]} ].
Proof. split; reflexivity. Qed.

(** C8. When the insert and the query both succeed, the handler returns
    what the procedure produced, as it is: the same rows in the same
    order, and the empty sequence when the procedure produced none. *)
Theorem submit_score_returns_rows_verbatim
    (env : Env) (entry : LeaderboardEntry) (w : World)
    (data : option (list (gmap string value))) :
  let row : gmap string value :=
    {[ "initials" := VStr (initials entry);
       "score" := VInt (score entry);
       "created_at" := VStr (now_isoformat env) ]} in
  let params : gmap string value :=
    {[ "p_initials" := VStr (initials entry);
       "p_score" := VInt (score entry);
       "p_window_size" := VInt 3 ]} in
  insert_execute env "leaderboard" row (db w) = None →
  rpc_execute env "get_leaderboard_window" params
    (<["leaderboard" := (db w !!! "leaderboard") ++ [row]]> (db w))
    = inr data →
  (submit_score env entry w).1 = Returned (default [] data) ∧
  (post_api_leaderboard env entry w).1 =
    {| status := 200; body := JsonRows (default [] data) |}.
Proof.
  intros row params E1 E2.
  destruct (submit_score_returns env entry w data E1 E2) as (Hr & _ & _).
  split; [done|].
  unfold post_api_leaderboard.
  destruct (submit_score env entry w) as [o w']. simpl in Hr. by subst o.
Qed.

Lemma submit_score_returns_rows_verbatim_witness :
  (submit_score Examples.all_up Examples.AAA_100 Examples.world0).1
    = Returned (default [] (Some Examples.window)) ∧
  (post_api_leaderboard Examples.all_up Examples.AAA_100 Examples.world0).1 =
    {| status := 200; body := JsonRows (default [] (Some Examples.window)) |}.
Proof.
  apply (submit_score_returns_rows_verbatim Examples.all_up Examples.AAA_100
           Examples.world0 (Some Examples.window)); reflexivity.
Defined.

(** The procedure returning nothing: [None] and [[]] both give [[]]. *)
Example submit_score_no_rows :
  (post_api_leaderboard (Examples.with_rpc (inr None) Examples.all_up)
     Examples.AAA_100 Examples.world0).1
    = {| status := 200; body := JsonRows [] |} ∧
  (post_api_leaderboard (Examples.with_rpc (inr (Some [])) Examples.all_up)
     Examples.AAA_100 Examples.world0).1
    = {| status := 200; body := JsonRows [] |}.
Proof. split; reflexivity. Qed.

Section LeaderboardFailures.
Context (env : Env).

Lemma post_api_leaderboard_insert_fails entry w e :
  insert_execute env "leaderboard"
    {[ "initials" := VStr (initials entry);
       "score" := VInt (score entry);
       "created_at" := VStr (now_isoformat env) ]} (db w) = Some e →
  (post_api_leaderboard env entry w).1 =
    {| status := 500; body := JsonDetail (str e) |}.
Proof.
  intros E. unfold post_api_leaderboard.
  by rewrite (submit_score_insert_fails env entry w e E).
Qed.

(** The inner handler's [HTTPException] is raised inside the outer
    [try], whose handler takes its [str] as the new detail. *)
Lemma post_api_leaderboard_rpc_fails entry w e :
  insert_execute env "leaderboard"
    {[ "initials" := VStr (initials entry);
       "score" := VInt (score entry);
       "created_at" := VStr (now_isoformat env) ]} (db w) = None →
  rpc_execute env "get_leaderboard_window"
    {[ "p_initials" := VStr (initials entry);
       "p_score" := VInt (score entry);
       "p_window_size" := VInt 3 ]}
    (<["leaderboard" := (db w !!! "leaderboard") ++
         [ {[ "initials" := VStr (initials entry);
              "score" := VInt (score entry);
              "created_at" := VStr (now_isoformat env) ]} ]]> (db w))
    = inl e →
  (post_api_leaderboard env entry w).1 =
    {| status := 500; body := JsonDetail ("500: " +:+ str e) |}.
Proof.
  intros E1 E2. unfold post_api_leaderboard.
  by rewrite (submit_score_rpc_fails env entry w e E1 E2).
Qed.
End LeaderboardFailures.

Lemma string_length_app (s1 s2 : string) :
  String.length (s1 +:+ s2) = String.length s1 + String.length s2.
Proof. induction s1 as [|a s1 IH]; simpl; [done|]. by rewrite IH. Qed.

(** C4 (what the code does where the specification asks for the
    underlying message).  When the insert succeeds and the windowed query raises an
    exception whose description is [m], the caller receives a 500 whose
    detail is "500: " followed by [m], never [m] itself: the
    [HTTPException] the inner handler builds with detail [m] is raised
    inside the outer [try] and caught again by the outer handler, which
    puts the [str] of that exception in its place. *)
Theorem submit_score_rpc_failure_detail_is_rewrapped
    (env : Env) (entry : LeaderboardEntry) (w : World) (e : exn) :
  let row : gmap string value :=
    {[ "initials" := VStr (initials entry);
       "score" := VInt (score entry);
       "created_at" := VStr (now_isoformat env) ]} in
  let params : gmap string value :=
    {[ "p_initials" := VStr (initials entry);
       "p_score" := VInt (score entry);
       "p_window_size" := VInt 3 ]} in
  insert_execute env "leaderboard" row (db w) = None →
  rpc_execute env "get_leaderboard_window" params
    (<["leaderboard" := (db w !!! "leaderboard") ++ [row]]> (db w))
    = inl e →
  (post_api_leaderboard env entry w).1 =
    {| status := 500; body := JsonDetail ("500: " +:+ str e) |} ∧
  "500: " +:+ str e ≠ str e.
Proof.
  intros row params E1 E2. split.
  - by apply post_api_leaderboard_rpc_fails.
  - intros H. apply (f_equal String.length) in H.
    rewrite string_length_app in H. simpl in H. lia.
Qed.

Lemma submit_score_rpc_failure_detail_is_rewrapped_witness :
  (post_api_leaderboard
     (Examples.with_rpc (inl (Exception "boom")) Examples.all_up)
     Examples.AAA_100 Examples.world0).1
    = {| status := 500; body := JsonDetail "500: boom" |} ∧
  "500: boom" ≠ "boom".
Proof.
  apply (submit_score_rpc_failure_detail_is_rewrapped
           (Examples.with_rpc (inl (Exception "boom")) Examples.all_up)
           Examples.AAA_100 Examples.world0 (Exception "boom"));
    reflexivity.
Defined.

(** C7 as stated fails: an insert that raises an exception whose
    description is empty gives a 500 whose detail is empty. *)
Lemma submit_score_insert_failure_detail_can_be_empty :
  ¬ (∀ (env : Env) (entry : LeaderboardEntry) (w : World) (e : exn),
       insert_execute env "leaderboard"
         {[ "initials" := VStr (initials entry);
            "score" := VInt (score entry);
            "created_at" := VStr (now_isoformat env) ]} (db w) = Some e →
       Forall (λ c, is_rpc c = false)
         (new_calls w (submit_score env entry w).2) ∧
       ∃ detail : string,
         (post_api_leaderboard env entry w).1 =
           {| status := 500; body := JsonDetail detail |} ∧
         detail ≠ "").
Proof.
  intros H.
  destruct (H (Examples.with_insert (Some (Exception "")) Examples.all_up)
              Examples.AAA_100 Examples.world0 (Exception "") eq_refl)
    as (_ & detail & Hresp & Hne).
  vm_compute in Hresp. by simplify_eq.
Qed.

(** C7, amended.  When the insert fails, the insert is the only call the
    handler issues (no windowed query), and the caller receives a 500
    whose detail is the description of the failure, so it is non-empty
    whenever that description is. *)
Theorem submit_score_insert_failure_stops
    (env : Env) (entry : LeaderboardEntry) (w : World) (e : exn) :
  let row : gmap string value :=
    {[ "initials" := VStr (initials entry);
       "score" := VInt (score entry);
       "created_at" := VStr (now_isoformat env) ]} in
  insert_execute env "leaderboard" row (db w) = Some e →
  new_calls w (submit_score env entry w).2 = [TableInsert "leaderboard" row] ∧
  Forall (λ c, is_rpc c = false) (new_calls w (submit_score env entry w).2) ∧
  (post_api_leaderboard env entry w).1 =
    {| status := 500; body := JsonDetail (str e) |}.
Proof.
  intros row E.
  assert (Hc : new_calls w (submit_score env entry w).2
               = [TableInsert "leaderboard" row]).
  { rewrite (submit_score_insert_fails env entry w e E).
    by apply new_calls_app. }
  split_and!.
  - done.
  - rewrite Hc. by repeat constructor.
  - by apply post_api_leaderboard_insert_fails.
Qed.

Lemma submit_score_insert_failure_stops_witness :
  let env :=
    Examples.with_insert (Some (Exception "connection refused"))
      Examples.all_up in
  let row : gmap string value :=
    {[ "initials" := VStr "AAA"; "score" := VInt 100;
       "created_at" := VStr "2025-06-01T12:00:00" ]} in
  insert_execute env "leaderboard" row (db Examples.world0)
    = Some (Exception "connection refused") ∧
  new_calls Examples.world0
    (submit_score env Examples.AAA_100 Examples.world0).2
    = [TableInsert "leaderboard" row] ∧
  Forall (λ c, is_rpc c = false)
    (new_calls Examples.world0
       (submit_score env Examples.AAA_100 Examples.world0).2) ∧
  (post_api_leaderboard env Examples.AAA_100 Examples.world0).1 =
    {| status := 500; body := JsonDetail "connection refused" |}.
Proof.
  intros env row. split; [reflexivity|].
  apply (submit_score_insert_failure_stops env Examples.AAA_100
           Examples.world0 (Exception "connection refused")).
  reflexivity.
Defined.

(** ** The health check *)

(** C9. The health check returns [{"status": "ok"}] with status 200 from
    every world, leaves the world as it was, consults no collaborator and
    never raises. *)
Theorem health_check_always_ok (w : World) :
  health_check w = (Returned {[ "status" := "ok" ]}, w) ∧
  get_api_health w =
    ({| status := 200; body := JsonObject {[ "status" := "ok" ]} |}, w) ∧
  ∀ e : exn, (health_check w).1 ≠ Raised e.
Proof. by split_and!. Qed.

(** * Further properties of the handlers *)

(** ** The loop of [generate] *)

(** X1. Whatever the stream holds and however it ends, the values
    yielded are an initial segment of the texts of its chunks, in arrival
    order: nothing is invented, reordered or repeated, and there are at
    most as many writes as chunks. *)
Theorem for_chunk_in_yields_prefix_of_texts
    (chunks : list ChatCompletionChunk) (err : option exn) :
  yielded (for_chunk_in chunks err) `prefix_of` omap chunk_text chunks ∧
  (length (yielded (for_chunk_in chunks err)) ≤ length chunks)%nat.
Proof.
  assert (P : yielded (for_chunk_in chunks err)
                `prefix_of` omap chunk_text chunks).
  { induction chunks as [|chunk chunks IH]; [done|].
    simpl. unfold chunk_text.
    destruct (choices chunk) as [|c cs]; [apply prefix_nil|].
    destruct (content (delta c)); [by apply prefix_cons|done]. }
  split; [done|].
  apply prefix_length in P. etrans; [exact P|].
  clear P. induction chunks as [|chunk chunks IH]; [done|].
  change (omap chunk_text (chunk :: chunks)) with
    (match chunk_text chunk with
     | Some text => text :: omap chunk_text chunks
     | None => omap chunk_text chunks
     end).
  destruct (chunk_text chunk); simpl; lia.
Qed.

(** X2. The loop ends normally exactly when every chunk has a first
    choice and the stream itself ends normally. *)
Theorem for_chunk_in_exhausted_iff
    (chunks : list ChatCompletionChunk) (err : option exn) :
  raised (for_chunk_in chunks err) = None ↔
  forallb has_choice chunks = true ∧ err = None.
Proof.
  induction chunks as [|chunk chunks IH]; simpl.
  - split; [by intros ->|by intros [_ ->]].
  - unfold has_choice at 1. destruct (choices chunk) as [|c cs]; simpl.
    + split; [done|by intros [? _]].
    + destruct (content (delta c)); exact IH.
Qed.

(** X3. A chunk without choices stops the relay with the [IndexError] of
    [chunk.choices[0]]: the texts before it have been yielded, nothing
    after it is, and the way the stream would have ended is never
    reached. *)
Theorem for_chunk_in_stops_at_chunk_without_choices
    (pre post : list ChatCompletionChunk) (chunk : ChatCompletionChunk)
    (err : option exn) :
  choices chunk = [] →
  forallb has_choice pre = true →
  for_chunk_in (pre ++ chunk :: post) err =
    {| yielded := omap chunk_text pre;
       raised := Some (Exception "list index out of range") |}.
Proof.
  intros Hbad Hpre. induction pre as [|p pre IH]; simpl.
  - by rewrite Hbad.
  - simpl in Hpre. unfold has_choice at 1 in Hpre. unfold chunk_text.
    destruct (choices p) as [|c cs]; [done|]. simpl in Hpre.
    rewrite IH by done. by destruct (content (delta c)).
Qed.

Lemma for_chunk_in_stops_at_chunk_without_choices_witness :
  for_chunk_in
    ([Examples.text_chunk "Hel"; Examples.role_chunk] ++
       {| choices := [] |} :: [Examples.text_chunk "lo"]) None =
    {| yielded :=
         omap chunk_text [Examples.text_chunk "Hel"; Examples.role_chunk];
       raised := Some (Exception "list index out of range") |}.
Proof.
  apply (for_chunk_in_stops_at_chunk_without_choices
           [Examples.text_chunk "Hel"; Examples.role_chunk]
           [Examples.text_chunk "lo"] {| choices := [] |} None);
    reflexivity.
Defined.

(** X4. The relay reads of each chunk only the content of its first
    choice: two streams that agree on those, whatever their further
    choices and their roles, are relayed alike. *)
Theorem for_chunk_in_reads_first_content_only
    (chunks1 chunks2 : list ChatCompletionChunk) (err : option exn) :
  map first_content chunks1 = map first_content chunks2 →
  for_chunk_in chunks1 err = for_chunk_in chunks2 err.
Proof.
  revert chunks2.
  induction chunks1 as [|c1 chunks1 IH]; intros [|c2 chunks2] E; try done.
  simpl in E. injection E as E1 E2. simpl.
  unfold first_content in E1.
  destruct (choices c1) as [|a1 l1], (choices c2) as [|a2 l2];
    simpl in E1; try done.
  injection E1 as E1. rewrite E1. by rewrite (IH chunks2 E2).
Qed.

Lemma for_chunk_in_reads_first_content_only_witness :
  for_chunk_in
    [ {| choices :=
           [ {| delta := {| role := Some "assistant"; content := Some "Hi" |} |};
             {| delta := {| role := None; content := Some "Bye" |} |} ] |} ]
    None =
  for_chunk_in [Examples.text_chunk "Hi"] None.
Proof.
  apply for_chunk_in_reads_first_content_only. reflexivity.
Defined.

(** ** [submit_score] *)

Lemma new_log_app (w w' : World) (records : list (level * string)) :
  log w' = log w ++ records → new_log w w' = records.
Proof. intros E. unfold new_log. rewrite E. apply drop_app_length. Qed.

Lemma submit_score_returns_log
    (env : Env) (entry : LeaderboardEntry) (w : World)
    (data : option (list (gmap string value))) :
  insert_execute env "leaderboard"
    {[ "initials" := VStr (initials entry);
       "score" := VInt (score entry);
       "created_at" := VStr (now_isoformat env) ]} (db w) = None →
  rpc_execute env "get_leaderboard_window"
    {[ "p_initials" := VStr (initials entry);
       "p_score" := VInt (score entry);
       "p_window_size" := VInt 3 ]}
    (<["leaderboard" := (db w !!! "leaderboard") ++
         [ {[ "initials" := VStr (initials entry);
              "score" := VInt (score entry);
              "created_at" := VStr (now_isoformat env) ]} ]]> (db w))
    = inr data →
  log (submit_score env entry w).2 =
    log w ++ (if truthy data then []
              else [(WARNING, "No data returned from leaderboard query")]).
Proof.
  intros E1 E2.
  unfold submit_score, try_except, table_insert_execute,
    supabase_rpc_execute, logger, mbind, Handler_bind,
    datetime_now_isoformat, mret, Handler_ret, raise.
  simpl. rewrite E1. simpl. rewrite E2.
  destruct data as [[|r rs]|]; simpl; by rewrite ?app_nil_r.
Qed.

(** X5. Whatever the database does, [submit_score] either returns rows
    or raises an [HTTPException] with status 500: no other exception
    leaves it, and the caller receives 200 with the rows or 500 with a
    detail, nothing else. *)
Theorem submit_score_returns_or_raises_500
    (env : Env) (entry : LeaderboardEntry) (w : World) :
  (∃ rows : list (gmap string value),
     (submit_score env entry w).1 = Returned rows ∧
     (post_api_leaderboard env entry w).1 =
       {| status := 200; body := JsonRows rows |}) ∨
  (∃ detail : string,
     (submit_score env entry w).1 = Raised (HTTPException 500 detail) ∧
     (post_api_leaderboard env entry w).1 =
       {| status := 500; body := JsonDetail detail |}).
Proof.
  destruct (insert_execute env "leaderboard"
              {[ "initials" := VStr (initials entry);
                 "score" := VInt (score entry);
                 "created_at" := VStr (now_isoformat env) ]} (db w))
    as [e|] eqn:E1.
  - right. exists (str e). unfold post_api_leaderboard.
    by rewrite (submit_score_insert_fails env entry w e E1).
  - destruct (rpc_execute env "get_leaderboard_window"
                {[ "p_initials" := VStr (initials entry);
                   "p_score" := VInt (score entry);
                   "p_window_size" := VInt 3 ]}
                (<["leaderboard" := (db w !!! "leaderboard") ++
                     [ {[ "initials" := VStr (initials entry);
                          "score" := VInt (score entry);
                          "created_at" := VStr (now_isoformat env) ]} ]]>
                   (db w))) as [e|data] eqn:E2.
    + right. exists (str (HTTPException 500 (str e))).
      unfold post_api_leaderboard.
      by rewrite (submit_score_rpc_fails env entry w e E1 E2).
    + left. exists (default [] data).
      destruct (submit_score_returns env entry w data E1 E2) as (Hr & _ & _).
      split; [done|]. unfold post_api_leaderboard.
      destruct (submit_score env entry w) as [o w']. simpl in Hr. by subst o.
Qed.

(** X6. What a submission writes to the log.  A failed insert is logged
    once, as an error.  A failed query is logged twice: by the inner
    handler with the failure's description, and by the outer handler
    with the description of the [HTTPException] the inner one raised.  A
    query that returns nothing is logged as a warning, and one that
    returns rows is not logged. *)
Theorem submit_score_log
    (env : Env) (entry : LeaderboardEntry) (w : World) :
  let row : gmap string value :=
    {[ "initials" := VStr (initials entry);
       "score" := VInt (score entry);
       "created_at" := VStr (now_isoformat env) ]} in
  let params : gmap string value :=
    {[ "p_initials" := VStr (initials entry);
       "p_score" := VInt (score entry);
       "p_window_size" := VInt 3 ]} in
  new_log w (submit_score env entry w).2 =
    match insert_execute env "leaderboard" row (db w) with
    | Some e => [(ERROR, "Error submitting score: " +:+ str e)]
    | None =>
        match rpc_execute env "get_leaderboard_window" params
                (<["leaderboard" := (db w !!! "leaderboard") ++ [row]]> (db w))
        with
        | inl e =>
            [(ERROR, "Error executing query: " +:+ str e);
             (ERROR, "Error submitting score: 500: " +:+ str e)]
        | inr data =>
            if truthy data then []
            else [(WARNING, "No data returned from leaderboard query")]
        end
    end.
Proof.
  intros row params.
  destruct (insert_execute env "leaderboard" row (db w)) as [e|] eqn:E1.
  - rewrite (submit_score_insert_fails env entry w e E1).
    by apply new_log_app.
  - destruct (rpc_execute env "get_leaderboard_window" params _)
      as [e|data] eqn:E2.
    + rewrite (submit_score_rpc_fails env entry w e E1 E2).
      apply new_log_app. simpl. by rewrite <-app_assoc.
    + apply new_log_app. by apply submit_score_returns_log.
Qed.

(** ** [chat] and [generate] *)

Lemma chat_raises_world
    (env : Env) (request : ChatRequest) (w : World) (e : exn) :
  OpenAI_init env = Some e →
  (chat env request w).2 =
    {| db := db w; calls := calls w;
       log := (log w ++
                 [(INFO, "Received request: " +:+ request_str env request)])
              ++ [(ERROR, "Error processing request: " +:+ str e)] |}.
Proof.
  intros E. unfold chat, try_except, OpenAI, logger, mbind, Handler_bind,
    raise. simpl. by rewrite E.
Qed.

Lemma post_api_chat_world_streams
    (env : Env) (request : ChatRequest) (w : World) :
  OpenAI_init env = None →
  (post_api_chat env request w).2 =
    {| db := db w;
       calls := calls w ++
         [CompletionsCreate (model request) (generate_messages request)];
       log := log w ++
         [(INFO, "Received request: " +:+ request_str env request)] |}.
Proof.
  intros E. unfold post_api_chat. rewrite chat_returns by done.
  unfold generate. simpl.
  by destruct (completions_create env _ _).
Qed.

Lemma post_api_chat_world_raises
    (env : Env) (request : ChatRequest) (w : World) (e : exn) :
  OpenAI_init env = Some e →
  (post_api_chat env request w).2 = (chat env request w).2.
Proof.
  intros E. pose proof (chat_raises env request w e E) as H.
  unfold post_api_chat. destruct (chat env request w) as [o w'].
  simpl in H. by subst o.
Qed.

(** X9. By the time [chat] returns or raises, no call to the provider
    has been issued: the completion call is left to whoever iterates the
    response.  Neither the handler nor the whole route reads or changes
    a table. *)
Theorem chat_issues_no_call_and_leaves_the_tables
    (env : Env) (request : ChatRequest) (w : World) :
  calls (chat env request w).2 = calls w ∧
  db (chat env request w).2 = db w ∧
  db (post_api_chat env request w).2 = db w.
Proof.
  destruct (OpenAI_init env) as [e|] eqn:E.
  - rewrite (post_api_chat_world_raises env request w e E).
    by rewrite (chat_raises_world env request w e E).
  - rewrite post_api_chat_world_streams by done.
    by rewrite chat_returns.
Qed.

(** X10. What a chat request writes to the log: the request on arrival,
    and an error only when the client could not be built.  A failure of
    the completion call or of the stream leaves no record. *)
Theorem post_api_chat_log
    (env : Env) (request : ChatRequest) (w : World) :
  new_log w (post_api_chat env request w).2 =
    (INFO, "Received request: " +:+ request_str env request) ::
    match OpenAI_init env with
    | None => []
    | Some e => [(ERROR, "Error processing request: " +:+ str e)]
    end.
Proof.
  apply new_log_app.
  destruct (OpenAI_init env) as [e|] eqn:E.
  - rewrite (post_api_chat_world_raises env request w e E).
    rewrite (chat_raises_world env request w e E). simpl.
    by rewrite <-app_assoc.
  - by rewrite post_api_chat_world_streams.
Qed.

(** X11. The chat route answers 500 exactly when the client cannot be
    built: then the detail is the description of that failure and no
    completion call is made; otherwise the status is 200, whatever the
    provider does. *)
Theorem post_api_chat_500_only_from_client
    (env : Env) (request : ChatRequest) (w : World) :
  match OpenAI_init env with
  | Some e =>
      (post_api_chat env request w).1 =
        {| status := 500; body := JsonDetail (str e) |} ∧
      new_calls w (post_api_chat env request w).2 = []
  | None => status (post_api_chat env request w).1 = 200%Z
  end.
Proof.
  pose proof (post_api_chat_new_calls env request w) as Hc.
  destruct (OpenAI_init env) as [e|] eqn:E.
  - split; [|done]. by apply post_api_chat_client_failure.
  - by apply post_api_chat_status_200.
Qed.

Lemma generate_messages_eq (request : ChatRequest) :
  generate_messages request =
    ({[ "role" := "developer"; "content" := developer_message request ]}
       : gmap string string)
    :: default [] (message_history request)
    ++ [ {[ "role" := "user"; "content" := user_message request ]} ].
Proof.
  unfold generate_messages.
  by destruct (message_history request) as [[|h t]|].
Qed.

Lemma cons_eq_inv {A : Type} (x y : A) (l k : list A) :
  x :: l = y :: k → x = y ∧ l = k.
Proof. intros E. by inversion E. Qed.

Lemma message_content_inj (r a b : string) :
  ({[ "role" := r; "content" := a ]} : gmap string string)
    = {[ "role" := r; "content" := b ]} →
  a = b.
Proof.
  intros E.
  apply (f_equal (λ m : gmap string string, m !! "content")) in E.
  rewrite !lookup_insert_ne, !lookup_singleton_eq in E by done.
  by simplify_eq.
Qed.

(** X12. The messages lose nothing of the request: two requests whose
    message sequences are equal have the same developer message, the same
    user message and the same history (an absent history counting as an
    empty one). *)
Theorem generate_messages_inj (r1 r2 : ChatRequest) :
  generate_messages r1 = generate_messages r2 →
  developer_message r1 = developer_message r2 ∧
  user_message r1 = user_message r2 ∧
  default [] (message_history r1) = default [] (message_history r2).
Proof.
  rewrite !generate_messages_eq. intros E.
  apply cons_eq_inv in E as [Hd Ht]. apply app_inj_tail in Ht as [Hh Hu].
  split_and!.
  - by apply (message_content_inj "developer").
  - by apply (message_content_inj "user").
  - done.
Qed.

Lemma generate_messages_inj_witness :
  let r :=
    {| developer_message := "Be brief."; user_message := "Say hello.";
       model := None;
       message_history := message_history Examples.greeting |} in
  developer_message Examples.greeting = developer_message r ∧
  user_message Examples.greeting = user_message r ∧
  default [] (message_history Examples.greeting)
    = default [] (message_history r).
Proof.
  intros r. apply (generate_messages_inj Examples.greeting r). reflexivity.
Defined.
